(** * A timestamp chain on the snowman consensus engine

    Shallow embedding of [block.go], [virtualMachine.go] and [service.go]:
    a block carries 32 bytes of data and the unix time of its creation;
    the VM queues proposed data in a mempool, builds blocks from it,
    and a block's [Verify] checks its timestamp against its parent's and
    against the local clock before saving it.

    The Go methods mutate the VM behind a pointer; here every operation
    takes the state it reads and returns the state it leaves, next to
    its Go result.  What the sources import from avalanchego
    ([core.SnowmanVM], [core.Block], the versioned database, the codec,
    hashing, the CB58 formatter) is not part of the repository: the
    pieces whose behaviour the sources rely on are modelled below under
    a comment that says so; the hash, the default codec and the CB58
    decoder are left open as the fields of the class [Externals]. *)

From Stdlib Require Import ZArith Ascii String DecimalString List Lia.
From Stdlib.Strings Require Import Byte.
From stdpp Require Import base option list gmap.

Local Open Scope string_scope.
Local Open Scope list_scope.
Local Open Scope Z_scope.

(** ** Errors *)

(** A Go [error] as a caller can tell it apart: an [errors.New] of this
    package is known by its text alone, [errBadData] is the package
    variable the service returns, and the remaining constructors wrap
    the errors handed up by the codec and the database. *)
Inductive error : Type :=
| errors_New (msg : string)
| errBadData
| codec_error (msg : string)
| database_error (msg : string).

(** [err != nil]. *)
Definition is_error (err : option error) : bool :=
  match err with Some _ => true | None => false end.

(** ** Time ([time.Time], to the extent the sources use it) *)

(** An instant as nanoseconds since the unix epoch; a duration as
    nanoseconds. *)
Definition Time : Type := Z.
Definition Duration : Type := Z.

Definition nanos_per_second : Z := 1000000000.

(** [time.Unix(sec, nsec)]. *)
Definition time_Unix (sec nsec : Z) : Time := sec * nanos_per_second + nsec.

(** [t.Unix()]: whole seconds since the epoch, rounded down. *)
Definition Unix (t : Time) : Z := t / nanos_per_second.

(** [t.Add(d)]. *)
Definition Add (t : Time) (d : Duration) : Time := t + d.

(** [time.Hour]. *)
Definition time_Hour : Duration := 3600 * nanos_per_second.

(** ** Identifiers, status, blocks *)

(** An [ids.ID] is a 32-byte hash, read here as the number it spells;
    [ids.Empty] is the all-zero one. *)
Definition ID : Type := N.
Definition ids_Empty : ID := 0%N.

(** Modelled from the spec: the status of a block (spec section 3,
    "one of Unverified, Verified-pending-consensus, Accepted,
    Rejected"); the type lives in avalanchego. *)
Inductive Status : Type := Unverified | Verified | Accepted | Rejected.

Definition Status_eqb (s t : Status) : bool :=
  match s, t with
  | Unverified, Unverified | Verified, Verified
  | Accepted, Accepted | Rejected, Rejected => true
  | _, _ => false
  end.

(** Modelled from the spec: the embedded [*core.Block] (identity, status
    and serialized form, and the parent's identity). *)
Record core_Block : Type := mk_core_Block {
  id : ID;
  status : Status;
  bytes : list byte;
  PrntID : ID
}.

(** [type Block struct] of block.go. *)
Record Block : Type := mk_Block {
  Block_core : core_Block;
  Data : list byte;      (* [32]byte *)
  Timestamp : Z          (* int64 *)
}.

Definition dataLen : nat := 32.

(** What [GetBlock] and [Parent] hand back: a block of this chain's
    type, or the placeholder for one that could not be retrieved.  The
    Go code tells them apart by a type assertion to a pointer to
    [Block]. *)
Inductive snowman_Block : Type :=
| this_Block (b : Block)
| missing_Block (blkID : ID).

(** ** The persistence boundary *)

(** Modelled from the spec: the key-value store behind the VM (spec
    sections 2 and 6): blocks keyed by identity, the status recorded
    for an identity, the last accepted identity and the flag that says
    the chain was bootstrapped. *)
Record Store : Type := mk_Store {
  st_blocks : gmap N Block;
  st_status : gmap N Status;
  st_lastAccepted : option ID;
  st_initialized : bool
}.

(** Modelled from the spec: the database handle given to [Initialize].
    [durable] is what has been flushed; [write_err] and [commit_err]
    are the errors, if any, with which this handle answers a write and
    a commit. *)
Record Database : Type := mk_Database {
  durable : Store;
  write_err : option string;
  commit_err : option string
}.

(** Modelled from the spec: the versioned database [vm.DB]: the view
    the VM reads and writes ([mem], the durable content with the writes
    made since the last commit applied) on top of the handle. *)
Record versiondb : Type := mk_versiondb {
  mem : Store;
  base : Database
}.

Definition versiondb_New (db : Database) : versiondb :=
  {| mem := durable db; base := db |}.

(** One write through the boundary: refused with the handle's write
    error, or applied to the view. *)
Definition db_write (db : versiondb) (f : Store -> Store) : versiondb * option error :=
  match write_err (base db) with
  | Some e => (db, Some (database_error e))
  | None => ({| mem := f (mem db); base := base db |}, None)
  end.

(** [db.Commit()]: flush the view, or fail and leave the durable
    content as it was. *)
Definition Commit (db : versiondb) : versiondb * option error :=
  match commit_err (base db) with
  | Some e => (db, Some (database_error e))
  | None =>
      ({| mem := mem db;
          base := {| durable := mem db;
                     write_err := write_err (base db);
                     commit_err := commit_err (base db) |} |}, None)
  end.

Definition put_block (b : Block) (s : Store) : Store :=
  {| st_blocks := <[id (Block_core b) := b]> (st_blocks s);
     st_status := st_status s;
     st_lastAccepted := st_lastAccepted s;
     st_initialized := st_initialized s |}.

Definition put_status (k : ID) (v : Status) (s : Store) : Store :=
  {| st_blocks := st_blocks s;
     st_status := <[k := v]> (st_status s);
     st_lastAccepted := st_lastAccepted s;
     st_initialized := st_initialized s |}.

Definition put_lastAccepted (k : ID) (s : Store) : Store :=
  {| st_blocks := st_blocks s;
     st_status := st_status s;
     st_lastAccepted := Some k;
     st_initialized := st_initialized s |}.

Definition put_initialized (s : Store) : Store :=
  {| st_blocks := st_blocks s;
     st_status := st_status s;
     st_lastAccepted := st_lastAccepted s;
     st_initialized := true |}.

(** ** The consensus boundary *)

Inductive Message : Type := PendingTxs.

(** The channel to the engine: [chan_cap] messages fit, [chan_buf] are
    waiting to be read. *)
Record Chan : Type := mk_Chan {
  chan_cap : nat;
  chan_buf : list Message
}.

(** ** [core.SnowmanVM] *)

(** Modelled from the spec: the chain state the VM embeds (spec section
    3, "Chain State"), with the database and the engine's channel. *)
Record SnowmanVM : Type := mk_SnowmanVM {
  DB : versiondb;
  preferred : ID;
  LastAcceptedID : ID;
  ToEngine : Chan
}.

Definition set_DB (svm : SnowmanVM) (db : versiondb) : SnowmanVM :=
  {| DB := db; preferred := preferred svm;
     LastAcceptedID := LastAcceptedID svm; ToEngine := ToEngine svm |}.

Definition Preferred (svm : SnowmanVM) : ID := preferred svm.
Definition LastAccepted (svm : SnowmanVM) : ID := LastAcceptedID svm.

Definition DBInitialized (svm : SnowmanVM) : bool := st_initialized (mem (DB svm)).

(** Modelled from the spec: [SetDBInitialized] records the flag through
    the boundary. *)
Definition SetDBInitialized (svm : SnowmanVM) : SnowmanVM * option error :=
  let '(db, err) := db_write (DB svm) put_initialized in (set_DB svm db, err).

(** Modelled from the spec: [SaveBlock(db, block)] writes the block
    under its own identity (spec section 6, "All Block writes go
    through put keyed by the block's own identity"). *)
Definition SaveBlock (db : versiondb) (b : Block) : versiondb * option error :=
  db_write db (put_block b).

Definition GetStatus (db : versiondb) (k : ID) : Status :=
  default Unverified (st_status (mem db) !! k).

(** Modelled from the spec: [GetBlock(id)]: the stored block with the
    status recorded for it, or the placeholder when nothing is stored
    under [id]. *)
Definition GetBlock (svm : SnowmanVM) (k : ID) : snowman_Block :=
  match st_blocks (mem (DB svm)) !! k with
  | Some b =>
      this_Block
        {| Block_core := {| id := id (Block_core b);
                            status := GetStatus (DB svm) k;
                            bytes := bytes (Block_core b);
                            PrntID := PrntID (Block_core b) |};
           Data := Data b; Timestamp := Timestamp b |}
  | None => missing_Block k
  end.

(** Modelled from the spec: a non-blocking send of [PendingTxs]; when
    the channel is full the message is dropped (spec section 4.2,
    "non-blocking ... may be coalesced"). *)
Definition NotifyBlockReady (svm : SnowmanVM) : SnowmanVM :=
  let c := ToEngine svm in
  if (length (chan_buf c) <? chan_cap c)%nat then
    {| DB := DB svm; preferred := preferred svm; LastAcceptedID := LastAcceptedID svm;
       ToEngine := {| chan_cap := chan_cap c; chan_buf := chan_buf c ++ [PendingTxs] |} |}
  else svm.

(** ** Methods of [core.Block] *)

Definition ParentID (b : Block) : ID := PrntID (Block_core b).

(** [b.Parent()]: the block stored under the parent's identity. *)
Definition Parent (b : Block) (svm : SnowmanVM) : snowman_Block :=
  GetBlock svm (ParentID b).

(** Modelled from the spec: [core.Block.Verify] reports whether the
    block is already accepted (spec section 4.1, "if status is already
    Accepted, return success immediately"; block.go, "If the core.Block
    says the block is accepted, return accepted"). *)
Definition core_Block_Verify (cb : core_Block) : bool * option error :=
  (Status_eqb (status cb) Accepted, None).

Definition set_status (b : Block) (s : Status) : Block :=
  {| Block_core := {| id := id (Block_core b); status := s;
                      bytes := bytes (Block_core b); PrntID := PrntID (Block_core b) |};
     Data := Data b; Timestamp := Timestamp b |}.

(** Modelled from the spec: [Accept] marks the block Accepted, records
    that and the last accepted identity through the boundary, and makes
    the block the VM's last accepted and preferred one
    (virtualMachine.go, "Sets [vm.lastAccepted] and [vm.preferred] to
    the genesisBlock").  A refused write leaves everything as it was. *)
Definition Accept (b : Block) (svm : SnowmanVM) : Block * SnowmanVM * option error :=
  let blkID := id (Block_core b) in
  match db_write (DB svm) (fun s => put_lastAccepted blkID (put_status blkID Accepted s)) with
  | (_, Some err) => (b, svm, Some err)
  | (db, None) =>
      (set_status b Accepted,
       {| DB := db; preferred := blkID; LastAcceptedID := blkID; ToEngine := ToEngine svm |},
       None)
  end.

(** ** block.go *)

Definition errRetrievingBlock : error :=
  errors_New "error while retrieving block from database".

(** The text the source gives to the errors of both timestamp checks. *)
Definition errTimestampAhead : error :=
  errors_New "block's timestamp is more than 1 hour ahead of local time".

(** [func (b *Block) Verify() error], run against the VM the block
    points to, at local time [now].  The block and the VM as the call
    leaves them are returned next to the error. *)
Definition Verify (b : Block) (svm : SnowmanVM) (now : Time)
  : Block * SnowmanVM * option error :=
  let '(accepted, err) := core_Block_Verify (Block_core b) in
  if is_error err || accepted then (b, svm, err)
  else
    match Parent b svm with
    | missing_Block _ => (b, svm, Some errRetrievingBlock)
    | this_Block parent =>
        if Timestamp b <? Unix (time_Unix (Timestamp parent) 0) then
          (b, svm, Some errTimestampAhead)
        else if Timestamp b >=? Unix (Add now time_Hour) then
          (b, svm, Some errTimestampAhead)
        else
          (* the result of SaveBlock is dropped *)
          let '(db1, _) := SaveBlock (DB svm) b in
          let '(db2, err) := Commit db1 in
          (b, set_DB svm db2, err)
    end.

(** ** virtualMachine.go *)

(** The codec boundary, as far as the sources call it: [Marshal] gives
    the byte representation of a block or fails. *)
Record Codec : Type := mk_Codec {
  Marshal : Block -> string + list byte
}.

(** [type VM struct]. *)
Record VM : Type := mk_VM {
  VM_SnowmanVM : SnowmanVM;
  codec : Codec;
  mempool : list (list byte)   (* [][32]byte *)
}.

Definition set_SnowmanVM (vm : VM) (svm : SnowmanVM) : VM :=
  {| VM_SnowmanVM := svm; codec := codec vm; mempool := mempool vm |}.

(** The builtin [copy(dst, src)]: the first [min(len(dst), len(src))]
    elements of [dst] are overwritten, the rest stay. *)
Definition copy {A : Type} (dst src : list A) : list A :=
  take (length dst) src ++ drop (length src) dst.

(** [var a [n]byte]: the zero array. *)
Definition zero_array (n : nat) : list byte := replicate n x00.

(** Modelled from the spec: [core.SnowmanVM.Initialize] opens the
    versioned database on the handle, keeps the channel and, when the
    database is already bootstrapped, resumes from it: the persisted
    last accepted block becomes the last accepted and the preferred one
    (spec section 4.2, "detect the flag and skip straight to resuming
    from persisted state"). *)
Definition SnowmanVM_Initialize (svm : SnowmanVM) (db : Database) (toEngine : Chan)
  : SnowmanVM * option error :=
  let svm1 := {| DB := versiondb_New db; preferred := preferred svm;
                 LastAcceptedID := LastAcceptedID svm; ToEngine := toEngine |} in
  if DBInitialized svm1 then
    match st_lastAccepted (mem (DB svm1)) with
    | Some k =>
        ({| DB := DB svm1; preferred := k; LastAcceptedID := k; ToEngine := toEngine |}, None)
    | None => (svm1, Some (database_error "no last accepted block"))
    end
  else (svm1, None).

(** Modelled from the spec: [core.NewBlock(parentID)], a block that
    only knows its parent. *)
Definition core_NewBlock (parentID : ID) : core_Block :=
  {| id := ids_Empty; status := Unverified; bytes := []; PrntID := parentID |}.

Definition errGenesisTooLong : error :=
  errors_New "genesis data should be bytes (max length 32)".

Definition errNoBlockToPropose : error :=
  errors_New "there is no block to propose".

(** [func (vm *VM) proposeBlock(data [dataLen]byte)]. *)
Definition proposeBlock (vm : VM) (data : list byte) : VM :=
  let vm1 := {| VM_SnowmanVM := VM_SnowmanVM vm; codec := codec vm;
                mempool := mempool vm ++ [data] |} in
  set_SnowmanVM vm1 (NotifyBlockReady (VM_SnowmanVM vm1)).

(** A run of proposals, first to last. *)
Definition proposeAll (vm : VM) (payloads : list (list byte)) : VM :=
  foldl proposeBlock vm payloads.

(** ** service.go *)

Record ProposeBlockArgs : Type := mk_ProposeBlockArgs {
  args_Data : string
}.

Record ProposeBlockReply : Type := mk_ProposeBlockReply {
  Success : bool
}.

(** The block literal of [NewBlock], as it is handed to the codec:
    parent, data and the timestamp in seconds, nothing else set yet. *)
Definition unsigned_block (parentID : ID) (data : list byte) (timestamp : Time) : Block :=
  {| Block_core := core_NewBlock parentID; Data := data; Timestamp := Unix timestamp |}.

(** The writes of the genesis bootstrap, in the order [Initialize]
    makes them, applied to store [s]: the block, its status and the
    last accepted identity, the flag. *)
Definition bootstrapped (genesis : Block) (s : Store) : Store :=
  put_initialized
    (put_lastAccepted (id (Block_core genesis))
       (put_status (id (Block_core genesis)) Accepted (put_block genesis s))).

(** The view [Verify] leaves when it lets a block through: the block
    written under its identity, unless the write was refused. *)
Definition view_after_Verify (b : Block) (db : versiondb) : Store :=
  match write_err (base db) with
  | Some _ => mem db
  | None => put_block b (mem db)
  end.

(** The library functions the sources call and whose results they only
    pass on: [hashing.ComputeHash256Array] (folded into an [ids.ID]),
    [codec.NewDefault()], and [formatting.CB58.FromString], which gives
    the bytes a string stands for in base 58 with checksum, or an
    error. *)
Class Externals : Type := mk_Externals {
  ComputeHash256 : list byte -> ID;
  codec_NewDefault : Codec;
  CB58_FromString : string -> string + list byte
}.

Section TimestampVM.

Context `{Externals}.

(** Modelled from the spec: [block.Initialize(bytes, vm)] gives the
    block its byte representation, the identity derived from it (spec
    section 3, "identity derived deterministically from serialized
    content") and the status recorded for that identity. *)
Definition Block_Initialize (b : Block) (blockBytes : list byte) (svm : SnowmanVM) : Block :=
  {| Block_core := {| id := ComputeHash256 blockBytes;
                      status := GetStatus (DB svm) (ComputeHash256 blockBytes);
                      bytes := blockBytes;
                      PrntID := PrntID (Block_core b) |};
     Data := Data b; Timestamp := Timestamp b |}.

(** [func (vm *VM) NewBlock(parentID, data, timestamp)], returning the
    block or an error. *)
Definition NewBlock (vm : VM) (parentID : ID) (data : list byte) (timestamp : Time)
  : error + Block :=
  let block := unsigned_block parentID data timestamp in
  match Marshal (codec vm) block with
  | inl err => inl (codec_error err)
  | inr blockBytes => inr (Block_Initialize block blockBytes (VM_SnowmanVM vm))
  end.

(** [func (vm *VM) Initialize(ctx, db, genesisData, toEngine, _) error].
    The context only serves logging and is left out. *)
Definition Initialize (vm : VM) (db : Database) (genesisData : list byte) (toEngine : Chan)
  : VM * option error :=
  match SnowmanVM_Initialize (VM_SnowmanVM vm) db toEngine with
  | (svm, Some err) => (set_SnowmanVM vm svm, Some err)
  | (svm, None) =>
      let vm := {| VM_SnowmanVM := svm; codec := codec_NewDefault; mempool := mempool vm |} in
      if negb (DBInitialized (VM_SnowmanVM vm)) then
        if (32 <? length genesisData)%nat then (vm, Some errGenesisTooLong)
        else
          let genesisDataArr := copy (zero_array dataLen) genesisData in
          match NewBlock vm ids_Empty genesisDataArr (time_Unix 0 0) with
          | inl err => (vm, Some err)
          | inr genesisBlock =>
              match SaveBlock (DB (VM_SnowmanVM vm)) genesisBlock with
              | (db1, Some err) => (set_SnowmanVM vm (set_DB (VM_SnowmanVM vm) db1), Some err)
              | (db1, None) =>
                  (* the results of Accept and SetDBInitialized are dropped *)
                  let '(_, svm2, _) := Accept genesisBlock (set_DB (VM_SnowmanVM vm) db1) in
                  let '(svm3, _) := SetDBInitialized svm2 in
                  let '(db4, err) := Commit (DB svm3) in
                  (set_SnowmanVM vm (set_DB svm3 db4), err)
              end
          end
      else (vm, None)
  end.

(** [func (vm *VM) BuildBlock() (snowman.Block, error)] at local time
    [now].  The deferred notification runs when the function returns,
    whatever it returns. *)
Definition BuildBlock (vm : VM) (now : Time) : VM * (error + Block) :=
  match mempool vm with
  | [] => (vm, inl errNoBlockToPropose)
  | value :: rest =>
      let vm1 := {| VM_SnowmanVM := VM_SnowmanVM vm; codec := codec vm; mempool := rest |} in
      let result := NewBlock vm1 (Preferred (VM_SnowmanVM vm1)) value now in
      if (0 <? length (mempool vm1))%nat then
        (set_SnowmanVM vm1 (NotifyBlockReady (VM_SnowmanVM vm1)), result)
      else (vm1, result)
  end.

(** The engine draining the mempool: one [BuildBlock] per reading of
    the clock, in order, with the results in the order of the calls. *)
Fixpoint BuildBlocks (vm : VM) (clock : list Time) : VM * list (error + Block) :=
  match clock with
  | [] => (vm, [])
  | now :: later =>
      let '(vm1, r) := BuildBlock vm now in
      let '(vm2, rs) := BuildBlocks vm1 later in
      (vm2, r :: rs)
  end.

(** [func (s *Service) ProposeBlock(_, args, reply) error], on the VM the
    service points to. *)
Definition ProposeBlock (vm : VM) (args : ProposeBlockArgs) (reply : ProposeBlockReply)
  : VM * ProposeBlockReply * option error :=
  match CB58_FromString (args_Data args) with
  | inl _ => (vm, reply, Some errBadData)
  | inr dataSlice =>
      if negb (length dataSlice =? 32)%nat then (vm, reply, Some errBadData)
      else
        let data := copy (zero_array dataLen) (take dataLen dataSlice) in
        (proposeBlock vm data, {| Success := true |}, None)
  end.

End TimestampVM.

(** ** [ParseBlock] (virtualMachine.go) *)

(** A [Block] struct while the codec fills it: [ParseBlock] starts
    from the zero struct, whose embedded pointer to the core block is
    nil until the codec sets it. *)
Record raw_Block : Type := mk_raw_Block {
  raw_core : option core_Block;
  raw_Data : list byte;
  raw_Timestamp : Z
}.

(** The zero [Block] struct of [ParseBlock]. *)
Definition empty_raw_Block : raw_Block :=
  {| raw_core := None; raw_Data := zero_array dataLen; raw_Timestamp := 0 |}.

(** A call that returns, or one that stops on a nil pointer. *)
Inductive outcome (A : Type) : Type :=
| returned (a : A)
| nil_dereference.

Arguments returned {A} a.
Arguments nil_dereference {A}.

(** The other method of the codec the sources call: [Unmarshal(bytes,
    block)] fills the struct it is given from the bytes and may fail;
    what it leaves in the struct when it fails is the library's
    business. *)
Class Decoder : Type := mk_Decoder {
  Unmarshal : Codec -> list byte -> raw_Block -> raw_Block * option string
}.

(** What the API reads and prints besides the CB58 decoder:
    [ids.FromString], the [String] method of an identity, and the
    [String] method of the CB58 formatter. *)
Class Formatting : Type := mk_Formatting {
  ids_FromString : string -> string + ID;
  ID_String : ID -> string;
  CB58_String : list byte -> string
}.

(** [type APIBlock struct] of service.go. *)
Record APIBlock : Type := mk_APIBlock {
  api_Timestamp : Z;
  api_Data : string;
  api_ID : string;
  api_ParentID : string
}.

Record GetBlockArgs : Type := mk_GetBlockArgs {
  args_ID : string
}.

Definition errParsingID : error := errors_New "problem parsing ID".

Definition errGettingData : error := errors_New "error getting data from database".

Section ParsingAndReading.

Context {ext : Externals} {dec : Decoder} {fmt : Formatting}.

(** [func (vm *VM) ParseBlock(bytes []byte) (snowman.Block, error)].
    The block is initialized whatever [Unmarshal] returned, through
    the embedded pointer: when the codec left that pointer nil the
    call does not return. *)
Definition ParseBlock (vm : VM) (blockBytes : list byte) : outcome (Block * option error) :=
  let block := empty_raw_Block in
  let '(block, err) := Unmarshal (codec vm) blockBytes block in
  match raw_core block with
  | None => nil_dereference
  | Some cb =>
      returned
        (Block_Initialize
           {| Block_core := cb; Data := raw_Data block; Timestamp := raw_Timestamp block |}
           blockBytes (VM_SnowmanVM vm),
         option_map codec_error err)
  end.

(** [func (s *Service) GetBlock(_, args, reply) error], on the VM the
    service points to.  [vm.GetBlock] failing and its result not being
    a [Block] both give the same error. *)
Definition Service_GetBlock (vm : VM) (args : GetBlockArgs) (reply : APIBlock)
  : APIBlock * option error :=
  let parsed :=
    if String.eqb (args_ID args) "" then inr (LastAccepted (VM_SnowmanVM vm))
    else match ids_FromString (args_ID args) with
         | inl _ => inl errParsingID
         | inr k => inr k
         end in
  match parsed with
  | inl err => (reply, Some err)
  | inr ID =>
      match GetBlock (VM_SnowmanVM vm) ID with
      | missing_Block _ => (reply, Some errGettingData)
      | this_Block block =>
          ({| api_ID := ID_String (id (Block_core block));
              api_Timestamp := Timestamp block;
              api_ParentID := ID_String (ParentID block);
              api_Data := CB58_String (Data block) |}, None)
      end
  end.

End ParsingAndReading.

(** ** Sample data for the worked examples *)

Module Sample.

(** [n] bytes, big-endian, of [v]. *)
Fixpoint be_bytes (n : nat) (v : N) : list byte :=
  match n with
  | O => []
  | S m => be_bytes m (v / 256)%N ++ [default x00 (Byte.of_N (v mod 256)%N)]
  end.

(** A codec that writes the parent's identity, the data and the
    timestamp one after the other. *)
Definition plain_codec : Codec :=
  {| Marshal := fun b =>
       inr (be_bytes 32 (PrntID (Block_core b)) ++ Data b
            ++ be_bytes 8 (Z.to_N (Timestamp b mod 2 ^ 64))) |}.

(** A codec that refuses every block. *)
Definition failing_codec : Codec :=
  {| Marshal := fun _ => inl "cannot marshal" |}.

(** A stand-in for the hash: a polynomial of the bytes modulo a prime,
    plus one. *)
Definition sum_hash (bs : list byte) : ID :=
  N.succ (fold_left (fun acc b => ((acc * 31 + Byte.to_N b) mod 1000003)%N) bs 0%N).

(** A stand-in for the CB58 decoder: a string of exactly the letter
    [z] decodes to as many [0x7a] bytes, anything else is refused. *)
Fixpoint toy_FromString (s : string) : string + list byte :=
  match s with
  | EmptyString => inr []
  | String c rest =>
      if Ascii.eqb c "z"%char then
        match toy_FromString rest with
        | inr bs => inr (x7a :: bs)
        | inl e => inl e
        end
      else inl "invalid character"
  end.

Definition externals : Externals :=
  {| ComputeHash256 := sum_hash;
     codec_NewDefault := plain_codec;
     CB58_FromString := toy_FromString |}.

Definition zeros : list byte := replicate 32 x00.

(** A chain whose last accepted block has identity 7 and timestamp
    100. *)
Definition tip : Block :=
  {| Block_core := {| id := 7%N; status := Accepted; bytes := []; PrntID := ids_Empty |};
     Data := zeros; Timestamp := 100 |}.

Definition store : Store :=
  {| st_blocks := {[ 7%N := tip ]};
     st_status := {[ 7%N := Accepted ]};
     st_lastAccepted := Some 7%N;
     st_initialized := true |}.

Definition handle (werr cerr : option string) : Database :=
  {| durable := store; write_err := werr; commit_err := cerr |}.

Definition engine : Chan := {| chan_cap := 1; chan_buf := [] |}.

Definition svm (werr cerr : option string) : SnowmanVM :=
  {| DB := versiondb_New (handle werr cerr);
     preferred := 7%N; LastAcceptedID := 7%N; ToEngine := engine |}.

(** A block on top of [tip], created at second [ts]. *)
Definition child (st : Status) (ts : Z) : Block :=
  {| Block_core := {| id := 8%N; status := st; bytes := []; PrntID := 7%N |};
     Data := zeros; Timestamp := ts |}.

(** The local clock: 1000 seconds and a bit after the epoch. *)
Definition now : Time := time_Unix 1000 250.

(** A database nothing was written to yet. *)
Definition empty_store : Store :=
  {| st_blocks := ∅; st_status := ∅; st_lastAccepted := None; st_initialized := false |}.

Definition fresh_handle (werr cerr : option string) : Database :=
  {| durable := empty_store; write_err := werr; commit_err := cerr |}.

(** A VM before [Initialize]. *)
Definition blank_vm (c : Codec) : VM :=
  {| VM_SnowmanVM := {| DB := versiondb_New (fresh_handle None None);
                        preferred := ids_Empty; LastAcceptedID := ids_Empty;
                        ToEngine := engine |};
     codec := c; mempool := [] |}.

(** A running VM on the sample chain. *)
Definition vm (pool : list (list byte)) : VM :=
  {| VM_SnowmanVM := svm None None; codec := plain_codec; mempool := pool |}.

(** The two-byte genesis data of the examples, the 32 bytes it is
    padded to, and the serialized genesis block under [plain_codec]. *)
Definition genesis_data : list byte := [x01; x02].

Definition genesis_array : list byte := genesis_data ++ replicate 30 x00.

Definition genesis_bytes : list byte :=
  be_bytes 32 ids_Empty ++ genesis_array ++ be_bytes 8 0.

(** The sample VM after its first [Initialize] on a fresh database. *)
Definition booted : VM :=
  fst (Initialize (H := externals) (blank_vm failing_codec) (fresh_handle None None)
         genesis_data engine).


(** The bytes of [be_bytes] read back as a number. *)
Definition from_be (bs : list byte) : N :=
  fold_left (fun acc b => (acc * 256 + Byte.to_N b)%N) bs 0%N.

(** The decoder that goes with [plain_codec]: 72 bytes are parent,
    data and timestamp; any other input is refused with the struct
    left as it was. *)
Definition plain_decoder : Decoder :=
  {| Unmarshal := fun _ bs blk =>
       if (length bs =? 72)%nat then
         ({| raw_core := Some (core_NewBlock (from_be (take 32 bs)));
             raw_Data := take 32 (drop 32 bs);
             raw_Timestamp := Z.of_N (from_be (drop 64 bs)) |}, None)
       else (blk, Some "short input") |}.

(** Identities in decimal, payloads as the text their bytes spell. *)
Definition decimal_formatting : Formatting :=
  {| ids_FromString := fun s =>
       match NilEmpty.uint_of_string s with
       | Some u => inr (N.of_uint u)
       | None => inl "not a number"
       end;
     ID_String := fun k => NilEmpty.string_of_uint (N.to_uint k);
     CB58_String := string_of_list_byte |}.

End Sample.

(** * Properties *)

(** ** Time *)

Lemma Unix_time_Unix (sec : Z) : Unix (time_Unix sec 0) = sec.
Proof.
  unfold Unix, time_Unix. rewrite Z.add_0_r.
  apply Z.div_mul. unfold nanos_per_second. lia.
Qed.

Lemma Unix_Add_Hour (t : Time) : Unix (Add t time_Hour) = Unix t + 3600.
Proof.
  unfold Unix, Add, time_Hour.
  apply Z.div_add. unfold nanos_per_second. lia.
Qed.

(** ** [Verify] *)

Lemma Status_eqb_eq (s t : Status) : Status_eqb s t = true <-> s = t.
Proof. destruct s, t; simpl; split; congruence. Qed.

Lemma core_Block_Verify_accepted (cb : core_Block) :
  status cb = Accepted -> core_Block_Verify cb = (true, None).
Proof.
  intros Hst. unfold core_Block_Verify. rewrite Hst. reflexivity.
Qed.

Lemma core_Block_Verify_pending (cb : core_Block) :
  status cb <> Accepted -> core_Block_Verify cb = (false, None).
Proof.
  intros Hst. unfold core_Block_Verify.
  destruct (Status_eqb (status cb) Accepted) eqn:E; [|reflexivity].
  apply Status_eqb_eq in E. contradiction.
Qed.

(** What [Verify] does to a block that is not accepted yet, with the
    two clock readings simplified. *)
Lemma Verify_pending (b : Block) (svm : SnowmanVM) (now : Time) :
  status (Block_core b) <> Accepted ->
  Verify b svm now =
    match Parent b svm with
    | missing_Block _ => (b, svm, Some errRetrievingBlock)
    | this_Block parent =>
        if Timestamp b <? Timestamp parent then (b, svm, Some errTimestampAhead)
        else if Timestamp b >=? Unix now + 3600 then (b, svm, Some errTimestampAhead)
        else
          let r := Commit (fst (SaveBlock (DB svm) b)) in
          (b, set_DB svm (fst r), snd r)
    end.
Proof.
  intros Hst. unfold Verify.
  rewrite (core_Block_Verify_pending _ Hst). simpl.
  destruct (Parent b svm) as [parent|k]; [|reflexivity].
  rewrite Unix_time_Unix, Unix_Add_Hour.
  destruct (Timestamp b <? Timestamp parent); [reflexivity|].
  destruct (Timestamp b >=? Unix now + 3600); [reflexivity|].
  destruct (SaveBlock (DB svm) b) as [db1 e1]. simpl.
  destruct (Commit db1) as [db2 e2]. reflexivity.
Qed.

(** The first check fires exactly when the block is older than its
    parent. *)
Lemma Verify_older_than_parent (b parent : Block) (svm : SnowmanVM) (now : Time) :
  status (Block_core b) <> Accepted ->
  Parent b svm = this_Block parent ->
  Timestamp b < Timestamp parent ->
  Verify b svm now = (b, svm, Some errTimestampAhead).
Proof.
  intros Hst Hp Hlt. rewrite (Verify_pending _ _ _ Hst), Hp.
  apply Z.ltb_lt in Hlt. rewrite Hlt. reflexivity.
Qed.

(** The second check fires from [now + 3600] on, that bound included. *)
Lemma Verify_hour_ahead (b parent : Block) (svm : SnowmanVM) (now : Time) :
  status (Block_core b) <> Accepted ->
  Parent b svm = this_Block parent ->
  Timestamp parent <= Timestamp b ->
  Unix now + 3600 <= Timestamp b ->
  Verify b svm now = (b, svm, Some errTimestampAhead).
Proof.
  intros Hst Hp Hge Hlate. rewrite (Verify_pending _ _ _ Hst), Hp.
  apply Z.ltb_ge in Hge. rewrite Hge.
  apply Z.geb_le in Hlate. rewrite Hlate. reflexivity.
Qed.

(** Between the two bounds the block is saved and the database
    flushed; the call returns what the flush returns. *)
Lemma Verify_in_window (b parent : Block) (svm : SnowmanVM) (now : Time) :
  status (Block_core b) <> Accepted ->
  Parent b svm = this_Block parent ->
  Timestamp parent <= Timestamp b < Unix now + 3600 ->
  Verify b svm now =
    (b, set_DB svm (fst (Commit (fst (SaveBlock (DB svm) b)))),
     snd (Commit (fst (SaveBlock (DB svm) b)))).
Proof.
  intros Hst Hp [Hge Hlt]. rewrite (Verify_pending _ _ _ Hst), Hp.
  apply Z.ltb_ge in Hge. rewrite Hge.
  destruct (Timestamp b >=? Unix now + 3600) eqn:E; [|reflexivity].
  apply Z.geb_le in E. lia.
Qed.

(** [Verify] never touches the block it is called on. *)
Lemma Verify_block_unchanged (b : Block) (svm : SnowmanVM) (now : Time) :
  fst (fst (Verify b svm now)) = b.
Proof.
  unfold Verify.
  destruct (core_Block_Verify (Block_core b)) as [accepted err].
  destruct (is_error err || accepted); [reflexivity|].
  destruct (Parent b svm) as [parent|k]; [|reflexivity].
  destruct (Timestamp b <? _); [reflexivity|].
  destruct (Timestamp b >=? _); [reflexivity|].
  destruct (SaveBlock (DB svm) b) as [db1 e1].
  destruct (Commit db1) as [db2 e2]. reflexivity.
Qed.

(** A failing commit is what [Verify] returns. *)
Lemma Verify_commit_error (b parent : Block) (svm : SnowmanVM) (now : Time) (e : string) :
  status (Block_core b) <> Accepted ->
  Parent b svm = this_Block parent ->
  Timestamp parent <= Timestamp b < Unix now + 3600 ->
  commit_err (base (DB svm)) = Some e ->
  snd (Verify b svm now) = Some (database_error e).
Proof.
  intros Hst Hp Hw Hc. rewrite (Verify_in_window _ _ _ _ Hst Hp Hw). simpl.
  unfold SaveBlock, db_write, Commit.
  destruct (write_err (base (DB svm))); simpl; rewrite Hc; reflexivity.
Qed.

(** A refused write is not: when the flush succeeds [Verify] reports
    success although the block is not in the database. *)
Lemma Verify_write_error_dropped (b parent : Block) (svm : SnowmanVM) (now : Time) (e : string) :
  status (Block_core b) <> Accepted ->
  Parent b svm = this_Block parent ->
  Timestamp parent <= Timestamp b < Unix now + 3600 ->
  write_err (base (DB svm)) = Some e ->
  commit_err (base (DB svm)) = None ->
  snd (Verify b svm now) = None /\
  mem (DB (snd (fst (Verify b svm now)))) = mem (DB svm).
Proof.
  intros Hst Hp Hw He Hc. rewrite (Verify_in_window _ _ _ _ Hst Hp Hw). simpl.
  unfold SaveBlock, db_write, Commit. rewrite He. simpl. rewrite Hc. simpl.
  split; reflexivity.
Qed.

(** When the write and the flush both succeed, the block is in the
    durable content under its own identity on return. *)
Lemma Verify_success_durable (b parent : Block) (svm : SnowmanVM) (now : Time) :
  status (Block_core b) <> Accepted ->
  Parent b svm = this_Block parent ->
  Timestamp parent <= Timestamp b < Unix now + 3600 ->
  write_err (base (DB svm)) = None ->
  commit_err (base (DB svm)) = None ->
  snd (Verify b svm now) = None /\
  st_blocks (durable (base (DB (snd (fst (Verify b svm now)))))) !! id (Block_core b)
    = Some b.
Proof.
  intros Hst Hp Hw He Hc. rewrite (Verify_in_window _ _ _ _ Hst Hp Hw). simpl.
  unfold SaveBlock, db_write, Commit. rewrite He. simpl. rewrite Hc. simpl.
  split; [reflexivity|]. apply lookup_insert_eq.
Qed.

(** C1 (the code departs from the claim): a block whose timestamp is
    equal to its parent's is not rejected.  On the sample chain, whose
    tip has timestamp 100, [Verify] of a child with timestamp 100 at
    local time 1000 returns no error and the child is in the database
    afterwards. *)
Theorem Verify_equal_timestamp_not_rejected :
  Parent (Sample.child Unverified 100) (Sample.svm None None) = this_Block Sample.tip /\
  Timestamp (Sample.child Unverified 100) = Timestamp Sample.tip /\
  snd (Verify (Sample.child Unverified 100) (Sample.svm None None) Sample.now) = None /\
  GetBlock (snd (fst (Verify (Sample.child Unverified 100) (Sample.svm None None) Sample.now))) 8%N
    = this_Block (Sample.child Unverified 100).
Proof. vm_compute. repeat split; reflexivity. Qed.

(** C2 (the code departs from the claim): a block whose timestamp is
    exactly one hour ahead of the local clock is rejected.  At local
    time 1000 a child of the sample tip with timestamp 4600 is refused
    with the error of the upper-bound check and nothing is written,
    while 4599 is let through. *)
Theorem Verify_exactly_one_hour_ahead_rejected :
  Unix Sample.now + 3600 = 4600 /\
  Verify (Sample.child Unverified 4600) (Sample.svm None None) Sample.now
    = (Sample.child Unverified 4600, Sample.svm None None, Some errTimestampAhead) /\
  snd (Verify (Sample.child Unverified 4599) (Sample.svm None None) Sample.now) = None.
Proof. vm_compute. repeat split; reflexivity. Qed.

(** C3 (the code departs from the claim): the error of the write is
    dropped.  With a database that refuses writes and accepts the
    commit, [Verify] of a valid child of the sample tip returns no
    error, and the block is neither in the view nor in the durable
    content afterwards. *)
Theorem Verify_ignores_failed_write :
  snd (SaveBlock (DB (Sample.svm (Some "closed") None)) (Sample.child Unverified 200))
    = Some (database_error "closed") /\
  snd (Verify (Sample.child Unverified 200) (Sample.svm (Some "closed") None) Sample.now) = None /\
  GetBlock (snd (fst (Verify (Sample.child Unverified 200)
                             (Sample.svm (Some "closed") None) Sample.now))) 8%N
    = missing_Block 8%N /\
  st_blocks (durable (base (DB (snd (fst (Verify (Sample.child Unverified 200)
                             (Sample.svm (Some "closed") None) Sample.now)))))) !! 8%N = None.
Proof. vm_compute. repeat split; reflexivity. Qed.

(** C4: [Verify] on a block whose status is Accepted returns no error
    at once: whatever its parent and its timestamp are, the block and
    the VM, database included, are left exactly as they were. *)
Theorem Verify_accepted_is_noop (b : Block) (svm : SnowmanVM) (now : Time) :
  status (Block_core b) = Accepted ->
  Verify b svm now = (b, svm, None).
Proof.
  intros Hst. unfold Verify.
  rewrite (core_Block_Verify_accepted _ Hst). reflexivity.
Qed.

(** An accepted block older than its parent, which the timestamp check
    would refuse, and one whose parent is unknown. *)
Lemma Verify_accepted_is_noop_witness :
  status (Block_core (Sample.child Accepted 0)) = Accepted /\
  Verify (Sample.child Accepted 0) (Sample.svm None None) Sample.now
    = (Sample.child Accepted 0, Sample.svm None None, None).
Proof.
  split; [reflexivity|].
  apply (Verify_accepted_is_noop (Sample.child Accepted 0)). reflexivity.
Defined.

(** ** Arrays *)

Lemma copy_length {A : Type} (dst src : list A) :
  length (copy dst src) = length dst.
Proof.
  unfold copy. rewrite length_app, length_take, length_drop. lia.
Qed.

(** Copying a short slice into the zero array pads it with zero bytes
    at the end. *)
Lemma copy_zero_array_short (n : nat) (src : list byte) :
  (length src <= n)%nat ->
  copy (zero_array n) src = src ++ replicate (n - length src) x00.
Proof.
  intros Hle. unfold copy, zero_array.
  rewrite length_replicate, take_ge by lia.
  f_equal. apply drop_replicate.
Qed.

(** Copying a slice of exactly the array's length gives the slice. *)
Lemma copy_zero_array_exact (n : nat) (src : list byte) :
  length src = n ->
  copy (zero_array n) (take n src) = src.
Proof.
  intros Hlen. rewrite take_ge by lia.
  rewrite copy_zero_array_short by lia.
  rewrite Hlen, Nat.sub_diag. simpl. apply app_nil_r.
Qed.

Section Properties.

Context `{Externals}.

(** ** [NewBlock] *)


Lemma NewBlock_marshalled (vm : VM) (parentID : ID) (data : list byte) (t : Time)
    (blockBytes : list byte) :
  Marshal (codec vm) (unsigned_block parentID data t) = inr blockBytes ->
  NewBlock vm parentID data t
    = inr (Block_Initialize (unsigned_block parentID data t) blockBytes (VM_SnowmanVM vm)).
Proof.
  unfold NewBlock, unsigned_block. intros ->. reflexivity.
Qed.


(** [NewBlock] reads the codec and the chain state, not the mempool. *)
Lemma NewBlock_mempool (svm : SnowmanVM) (c : Codec) (m1 m2 : list (list byte))
    (parentID : ID) (data : list byte) (t : Time) :
  NewBlock {| VM_SnowmanVM := svm; codec := c; mempool := m1 |} parentID data t
  = NewBlock {| VM_SnowmanVM := svm; codec := c; mempool := m2 |} parentID data t.
Proof. reflexivity. Qed.

(** ** [proposeBlock] and [BuildBlock] *)

Lemma proposeBlock_mempool (vm : VM) (data : list byte) :
  mempool (proposeBlock vm data) = mempool vm ++ [data].
Proof. reflexivity. Qed.

Lemma proposeBlock_codec (vm : VM) (data : list byte) :
  codec (proposeBlock vm data) = codec vm.
Proof. reflexivity. Qed.

Lemma NotifyBlockReady_chain_state (svm : SnowmanVM) :
  DB (NotifyBlockReady svm) = DB svm /\
  preferred (NotifyBlockReady svm) = preferred svm /\
  LastAcceptedID (NotifyBlockReady svm) = LastAcceptedID svm.
Proof.
  unfold NotifyBlockReady.
  destruct (length (chan_buf (ToEngine svm)) <? chan_cap (ToEngine svm))%nat;
    repeat split.
Qed.

Lemma BuildBlock_empty (vm : VM) (now : Time) :
  mempool vm = [] -> BuildBlock vm now = (vm, inl errNoBlockToPropose).
Proof. unfold BuildBlock. intros ->. reflexivity. Qed.

(** One step of [BuildBlock] on a non-empty mempool. *)
Lemma BuildBlock_cons (vm : VM) (now : Time) (value : list byte) (rest : list (list byte)) :
  mempool vm = value :: rest ->
  BuildBlock vm now =
    ({| VM_SnowmanVM := match rest with
                        | [] => VM_SnowmanVM vm
                        | _ :: _ => NotifyBlockReady (VM_SnowmanVM vm)
                        end;
        codec := codec vm; mempool := rest |},
     NewBlock vm (Preferred (VM_SnowmanVM vm)) value now).
Proof.
  unfold BuildBlock. intros ->. destruct rest; reflexivity.
Qed.


(** C9: whatever the state and the outcome, [BuildBlock] leaves the
    preferred and the last accepted identity as they were. *)
Theorem BuildBlock_keeps_chain_state (vm : VM) (now : Time) :
  Preferred (VM_SnowmanVM (fst (BuildBlock vm now))) = Preferred (VM_SnowmanVM vm) /\
  LastAccepted (VM_SnowmanVM (fst (BuildBlock vm now))) = LastAccepted (VM_SnowmanVM vm).
Proof.
  destruct (mempool vm) as [|value rest] eqn:Hm.
  - rewrite (BuildBlock_empty _ _ Hm). split; reflexivity.
  - rewrite (BuildBlock_cons _ _ _ _ Hm). simpl.
    unfold Preferred, LastAccepted.
    destruct rest; [split; reflexivity|].
    destruct (NotifyBlockReady_chain_state (VM_SnowmanVM vm)) as (_ & Hp & Hl).
    split; assumption.
Qed.


(** X20: a run of proposals leaves the mempool with what was queued
    before, followed by the proposed payloads in the order of the
    calls: nothing is dropped, reordered or merged, equal payloads
    included. *)
Lemma proposeAll_mempool (vm : VM) (payloads : list (list byte)) :
  mempool (proposeAll vm payloads) = mempool vm ++ payloads.
Proof.
  unfold proposeAll. revert vm.
  induction payloads as [|d ds IH]; intros vm; simpl.
  - symmetry. apply app_nil_r.
  - rewrite IH, proposeBlock_mempool, <- app_assoc. reflexivity.
Qed.

Lemma proposeAll_codec (vm : VM) (payloads : list (list byte)) :
  codec (proposeAll vm payloads) = codec vm.
Proof.
  unfold proposeAll. revert vm.
  induction payloads as [|d ds IH]; intros vm; simpl; [reflexivity|].
  rewrite IH. apply proposeBlock_codec.
Qed.

(** X21: draining a mempool of any length, with a codec that marshals
    every block: as many calls as there are entries return blocks
    holding the entries from the front to the back, and empty the
    mempool. *)
Lemma BuildBlocks_in_order (vm : VM) (clock : list Time) :
  (forall blk, exists blockBytes, Marshal (codec vm) blk = inr blockBytes) ->
  length clock = length (mempool vm) ->
  exists blocks,
    snd (BuildBlocks vm clock) = map inr blocks /\
    map Data blocks = mempool vm /\
    mempool (fst (BuildBlocks vm clock)) = [].
Proof.
  revert vm. induction clock as [|now later IH]; intros vm Hcodec Hlen.
  - exists []. simpl in *. destruct (mempool vm); [auto|discriminate].
  - destruct (mempool vm) as [|value rest] eqn:Hm; [discriminate|].
    simpl. rewrite (BuildBlock_cons _ _ _ _ Hm).
    set (vm1 := {| VM_SnowmanVM := _; codec := codec vm; mempool := rest |}).
    destruct (IH vm1) as (blocks & Hres & Hdata & Hempty).
    { exact Hcodec. }
    { simpl in Hlen. simpl. congruence. }
    destruct (BuildBlocks vm1 later) as [vm2 rs]. simpl in *.
    destruct (Hcodec (unsigned_block (Preferred (VM_SnowmanVM vm)) value now)) as [bs Hbs].
    rewrite (NewBlock_marshalled _ _ _ _ _ Hbs).
    eexists (_ :: blocks). simpl. rewrite Hres, Hdata. auto.
Qed.


(** ** The service *)

(** C10: [ProposeBlock] succeeds exactly when the argument decodes, as
    base 58 with checksum, to 32 bytes.  Every other argument gets
    [errBadData] and leaves the VM, its mempool included, and the
    reply untouched; on success the decoded 32 bytes are appended to
    the mempool and the reply says so. *)
Theorem ProposeBlock_checks_payload (vm : VM) (args : ProposeBlockArgs)
    (reply : ProposeBlockReply) :
  (snd (ProposeBlock vm args reply) = None <->
     exists payload, CB58_FromString (args_Data args) = inr payload /\
                     length payload = 32%nat) /\
  (snd (ProposeBlock vm args reply) <> None ->
     ProposeBlock vm args reply = (vm, reply, Some errBadData)) /\
  (forall payload, CB58_FromString (args_Data args) = inr payload ->
     length payload = 32%nat ->
     ProposeBlock vm args reply = (proposeBlock vm payload, {| Success := true |}, None) /\
     mempool (fst (fst (ProposeBlock vm args reply))) = mempool vm ++ [payload]).
Proof.
  unfold ProposeBlock.
  destruct (CB58_FromString (args_Data args)) as [e|dataSlice] eqn:Hdec.
  - simpl. split; [|split].
    + split; [discriminate|]. intros (payload & Hp & _). discriminate.
    + reflexivity.
    + intros payload Hp. discriminate.
  - destruct (length dataSlice =? 32)%nat eqn:Hlen; simpl.
    + apply Nat.eqb_eq in Hlen.
      assert (Hcopy : copy (zero_array dataLen) (take dataLen dataSlice) = dataSlice)
        by (apply copy_zero_array_exact; exact Hlen).
      rewrite Hcopy. split; [|split].
      * split; [eauto|reflexivity].
      * intros Hne. contradiction.
      * intros payload [= <-] _. split; reflexivity.
    + apply Nat.eqb_neq in Hlen. split; [|split].
      * split; [discriminate|]. intros (payload & [= <-] & Hp). contradiction.
      * reflexivity.
      * intros payload [= <-] Hp. contradiction.
Qed.

(** ** [Initialize] *)

Lemma Commit_mem (db : versiondb) : mem (fst (Commit db)) = mem db.
Proof. unfold Commit. destruct (commit_err (base db)); reflexivity. Qed.

Lemma Commit_result (db : versiondb) :
  snd (Commit db) = option_map database_error (commit_err (base db)).
Proof. unfold Commit. destruct (commit_err (base db)); reflexivity. Qed.

Lemma Commit_success (db : versiondb) :
  snd (Commit db) = None -> durable (base (fst (Commit db))) = mem db.
Proof.
  unfold Commit. destruct (commit_err (base db)); [discriminate|reflexivity].
Qed.

(** [Initialize] on a database that was never bootstrapped, when the
    genesis data fits, the codec marshals the genesis block and the
    database takes writes. *)
Lemma Initialize_fresh (vm : VM) (db : Database) (g : list byte) (ch : Chan)
    (blockBytes : list byte) :
  st_initialized (durable db) = false ->
  (length g <= 32)%nat ->
  Marshal codec_NewDefault
    (unsigned_block ids_Empty (g ++ replicate (32 - length g) x00) (time_Unix 0 0))
    = inr blockBytes ->
  write_err db = None ->
  let genesis :=
    Block_Initialize
      (unsigned_block ids_Empty (g ++ replicate (32 - length g) x00) (time_Unix 0 0))
      blockBytes
      {| DB := versiondb_New db; preferred := preferred (VM_SnowmanVM vm);
         LastAcceptedID := LastAcceptedID (VM_SnowmanVM vm); ToEngine := ch |} in
  let db' := Commit {| mem := bootstrapped genesis (durable db); base := db |} in
  Initialize vm db g ch =
    ({| VM_SnowmanVM := {| DB := fst db';
                           preferred := ComputeHash256 blockBytes;
                           LastAcceptedID := ComputeHash256 blockBytes;
                           ToEngine := ch |};
        codec := codec_NewDefault; mempool := mempool vm |},
     snd db').
Proof.
  intros Hflag Hlen Hbytes Hw genesis db'.
  unfold Initialize, SnowmanVM_Initialize, DBInitialized. simpl.
  rewrite Hflag. simpl.
  assert (Hfit : (32 <? length g)%nat = false) by (apply Nat.ltb_ge; exact Hlen).
  rewrite Hfit.
  unfold dataLen. rewrite copy_zero_array_short by exact Hlen.
  erewrite NewBlock_marshalled by exact Hbytes.
  unfold SaveBlock, db_write. simpl. rewrite Hw.
  unfold Accept, db_write. simpl. rewrite Hw.
  unfold SetDBInitialized, db_write. simpl. rewrite Hw. simpl.
  rewrite ?Hflag. simpl.
  unfold db', genesis, bootstrapped. simpl.
  destruct (Commit _) as [db4 err]. reflexivity.
Qed.





End Properties.

(** * Worked examples *)




(** [BuildBlock] on the sample VM with two entries queued: the first
    one goes into a block on top of the preferred tip, the second one
    stays and the engine is signalled. *)
Example BuildBlock_two_queued :
  let r := BuildBlock (H := Sample.externals) (Sample.vm [Sample.zeros; Sample.genesis_array])
             Sample.now in
  mempool (fst r) = [Sample.genesis_array] /\
  chan_buf (ToEngine (VM_SnowmanVM (fst r))) = [PendingTxs] /\
  exists blk, snd r = inr blk /\
    ParentID blk = 7%N /\ Data blk = Sample.zeros /\ Timestamp blk = 1000.
Proof.
  vm_compute. split; [reflexivity|]. split; [reflexivity|].
  eexists. split; [reflexivity|]. repeat split.
Qed.

(** With one entry queued the mempool is left empty and the engine is
    not signalled; with none the call fails. *)
Example BuildBlock_last_entry :
  let r := BuildBlock (H := Sample.externals) (Sample.vm [Sample.zeros]) Sample.now in
  mempool (fst r) = [] /\ chan_buf (ToEngine (VM_SnowmanVM (fst r))) = [] /\
  snd (BuildBlock (H := Sample.externals) (fst r) Sample.now) = inl errNoBlockToPropose.
Proof. vm_compute. repeat split; reflexivity. Qed.

(** When the codec refuses the block, [BuildBlock] returns the codec's
    error; the entry has left the mempool all the same. *)
Example BuildBlock_codec_failure :
  let vm := {| VM_SnowmanVM := Sample.svm None None; codec := Sample.failing_codec;
               mempool := [Sample.zeros] |} in
  snd (BuildBlock (H := Sample.externals) vm Sample.now) = inl (codec_error "cannot marshal") /\
  mempool (fst (BuildBlock (H := Sample.externals) vm Sample.now)) = [].
Proof. vm_compute. split; reflexivity. Qed.

(** The service on the sample VM: 32 letters decode to 32 bytes and
    are queued, 31 letters and a string the decoder refuses are not. *)
Example ProposeBlock_samples :
  let good := {| args_Data := "zzzzzzzzzzzzzzzzzzzzzzzzzzzzzzzz" |} in
  let short := {| args_Data := "zzzzzzzzzzzzzzzzzzzzzzzzzzzzzzz" |} in
  let bad := {| args_Data := "zzzzzzzzzzzzzzzzzzzzzzzzzzzzzzz0" |} in
  let reply := {| Success := false |} in
  mempool (fst (fst (ProposeBlock (H := Sample.externals) (Sample.vm []) good reply)))
    = [replicate 32 x7a] /\
  snd (ProposeBlock (H := Sample.externals) (Sample.vm []) good reply) = None /\
  snd (ProposeBlock (H := Sample.externals) (Sample.vm []) short reply) = Some errBadData /\
  mempool (fst (fst (ProposeBlock (H := Sample.externals) (Sample.vm []) short reply))) = [] /\
  snd (ProposeBlock (H := Sample.externals) (Sample.vm []) bad reply) = Some errBadData /\
  mempool (fst (fst (ProposeBlock (H := Sample.externals) (Sample.vm []) bad reply))) = [].
Proof. vm_compute. repeat split; reflexivity. Qed.

(** Genesis data of 33 bytes is refused; a database that refuses the
    write of the genesis block makes [Initialize] fail with the
    database's error, and nothing is accepted. *)
Example Initialize_failures :
  snd (Initialize (H := Sample.externals) (Sample.blank_vm Sample.plain_codec)
         (Sample.fresh_handle None None) (replicate 33 x00) Sample.engine)
    = Some errGenesisTooLong /\
  (let r := Initialize (H := Sample.externals) (Sample.blank_vm Sample.plain_codec)
              (Sample.fresh_handle (Some "closed") None) Sample.genesis_data Sample.engine in
   snd r = Some (database_error "closed") /\
   LastAccepted (VM_SnowmanVM (fst r)) = ids_Empty /\
   DBInitialized (VM_SnowmanVM (fst r)) = false).
Proof. vm_compute. repeat split; reflexivity. Qed.

(** * Further properties *)

(** ** [Verify] beyond the claims *)

Lemma Unix_monotone (t t' : Time) : t <= t' -> Unix t <= Unix t'.
Proof.
  intros Hle. unfold Unix. apply Z.div_le_mono; [|exact Hle].
  unfold nanos_per_second. lia.
Qed.

Lemma Parent_lookup (b : Block) (svm : SnowmanVM) (stored : Block) :
  st_blocks (mem (DB svm)) !! ParentID b = Some stored ->
  exists parent, Parent b svm = this_Block parent /\ Timestamp parent = Timestamp stored.
Proof.
  intros Hl. unfold Parent, GetBlock. rewrite Hl. eexists. split; reflexivity.
Qed.

Lemma Parent_this_Block (b parent : Block) (svm : SnowmanVM) :
  Parent b svm = this_Block parent ->
  exists stored, st_blocks (mem (DB svm)) !! ParentID b = Some stored /\
                 Timestamp stored = Timestamp parent.
Proof.
  unfold Parent, GetBlock.
  destruct (st_blocks (mem (DB svm)) !! ParentID b) as [stored|]; [|discriminate].
  intros [= <-]. eexists. split; reflexivity.
Qed.



(** X2: a [Verify] that returns an error has changed nothing durable:
    the flushed content of the database is the one it found. *)
Theorem Verify_error_keeps_durable (b : Block) (svm : SnowmanVM) (now : Time) :
  snd (Verify b svm now) <> None ->
  durable (base (DB (snd (fst (Verify b svm now))))) = durable (base (DB svm)).
Proof.
  unfold Verify.
  destruct (core_Block_Verify (Block_core b)) as [accepted err].
  destruct (is_error err || accepted); [reflexivity|].
  destruct (Parent b svm) as [parent|k]; [|reflexivity].
  destruct (Timestamp b <? _); [reflexivity|].
  destruct (Timestamp b >=? _); [reflexivity|].
  unfold SaveBlock, db_write, Commit.
  destruct (write_err (base (DB svm))); simpl;
    destruct (commit_err (base (DB svm))); simpl; intros Herr;
    solve [reflexivity | contradiction].
Qed.

Lemma Verify_error_keeps_durable_witness :
  snd (Verify (Sample.child Unverified 200) (Sample.svm None (Some "disk full")) Sample.now)
    = Some (database_error "disk full") /\
  durable (base (DB (snd (fst (Verify (Sample.child Unverified 200)
                                 (Sample.svm None (Some "disk full")) Sample.now)))))
    = Sample.store.
Proof.
  split; [vm_compute; reflexivity|].
  apply (Verify_error_keeps_durable (Sample.child Unverified 200)
           (Sample.svm None (Some "disk full")) Sample.now).
  vm_compute. discriminate.
Defined.



(** X4: a block [Verify] lets through stays valid: on the same state
    and at any later local time [Verify] returns no error either. *)
Theorem Verify_stays_valid (b : Block) (svm : SnowmanVM) (now now' : Time) :
  snd (Verify b svm now) = None ->
  now <= now' ->
  snd (Verify b svm now') = None.
Proof.
  intros Hok Hle.
  destruct (Status_eqb (status (Block_core b)) Accepted) eqn:Hst.
  - apply Status_eqb_eq in Hst. unfold Verify.
    rewrite (core_Block_Verify_accepted _ Hst). reflexivity.
  - assert (Hne : status (Block_core b) <> Accepted).
    { intros Heq. apply Status_eqb_eq in Heq. congruence. }
    revert Hok. rewrite !(Verify_pending _ _ _ Hne).
    destruct (Parent b svm) as [parent|k]; [|discriminate].
    destruct (Timestamp b <? Timestamp parent); [discriminate|].
    destruct (Timestamp b >=? Unix now + 3600) eqn:Hlate; [discriminate|].
    assert (Hlate' : (Timestamp b >=? Unix now' + 3600) = false).
    { destruct (Timestamp b >=? Unix now' + 3600) eqn:E; [|reflexivity].
      apply Z.geb_le in E. apply Unix_monotone in Hle.
      assert (Hge : Unix now + 3600 <= Timestamp b) by lia.
      apply Z.geb_le in Hge. congruence. }
    rewrite Hlate'. intros Hok. exact Hok.
Qed.

Lemma Verify_stays_valid_witness :
  snd (Verify (Sample.child Unverified 4599) (Sample.svm None None) Sample.now) = None /\
  Sample.now <= Sample.now + time_Hour /\
  snd (Verify (Sample.child Unverified 4599) (Sample.svm None None) (Sample.now + time_Hour))
    = None.
Proof.
  assert (Hnow : snd (Verify (Sample.child Unverified 4599) (Sample.svm None None) Sample.now)
                 = None) by (vm_compute; reflexivity).
  assert (Hle : Sample.now <= Sample.now + time_Hour) by (vm_compute; discriminate).
  split; [exact Hnow|]. split; [exact Hle|].
  exact (Verify_stays_valid _ _ _ _ Hnow Hle).
Defined.

Lemma put_block_twice (b : Block) (s : Store) :
  put_block b (put_block b s) = put_block b s.
Proof.
  unfold put_block. simpl. f_equal. apply insert_insert_eq.
Qed.

(** The state after a [Verify] that found the block in the window of
    valid timestamps and whose commit succeeded. *)
Lemma Verify_in_window_state (b parent : Block) (svm : SnowmanVM) (now : Time) :
  status (Block_core b) <> Accepted ->
  Parent b svm = this_Block parent ->
  Timestamp parent <= Timestamp b < Unix now + 3600 ->
  commit_err (base (DB svm)) = None ->
  Verify b svm now =
    (b,
     set_DB svm {| mem := view_after_Verify b (DB svm);
                   base := {| durable := view_after_Verify b (DB svm);
                              write_err := write_err (base (DB svm));
                              commit_err := None |} |},
     None).
Proof.
  intros Hst Hp Hw Hc. rewrite (Verify_in_window _ _ _ _ Hst Hp Hw).
  unfold SaveBlock, db_write, Commit, view_after_Verify.
  destruct (write_err (base (DB svm))) eqn:He; simpl; rewrite Hc; simpl;
    rewrite ?He; reflexivity.
Qed.

(** What a successful [Verify] of a block that is not accepted
    implies about its inputs. *)
Lemma Verify_success_inv (b : Block) (svm : SnowmanVM) (now : Time) :
  status (Block_core b) <> Accepted ->
  snd (Verify b svm now) = None ->
  exists parent,
    Parent b svm = this_Block parent /\
    Timestamp parent <= Timestamp b < Unix now + 3600 /\
    commit_err (base (DB svm)) = None.
Proof.
  intros Hst. rewrite (Verify_pending _ _ _ Hst).
  destruct (Parent b svm) as [parent|k]; [|discriminate].
  destruct (Timestamp b <? Timestamp parent) eqn:Hearly; [discriminate|].
  destruct (Timestamp b >=? Unix now + 3600) eqn:Hlate; [discriminate|].
  simpl. rewrite Commit_result.
  unfold SaveBlock, db_write.
  intros Hok. exists parent. split; [reflexivity|].
  apply Z.ltb_ge in Hearly. split.
  - split; [exact Hearly|].
    destruct (Z.lt_ge_cases (Timestamp b) (Unix now + 3600)) as [Hlt|Hge]; [exact Hlt|].
    apply Z.geb_le in Hge. congruence.
  - destruct (write_err (base (DB svm))); simpl in Hok;
      destruct (commit_err (base (DB svm))); simpl in Hok; congruence.
Qed.

(** X5: [Verify] can be repeated.  After a [Verify] that returned no
    error, a second one on the state the first one left, at the same or
    a later local time, returns no error again and leaves that state
    exactly as it is: nothing is stored twice. *)
Theorem Verify_again (b : Block) (svm : SnowmanVM) (now now' : Time) :
  snd (Verify b svm now) = None ->
  now <= now' ->
  Verify b (snd (fst (Verify b svm now))) now'
    = (b, snd (fst (Verify b svm now)), None).
Proof.
  intros Hok Hle.
  destruct (Status_eqb (status (Block_core b)) Accepted) eqn:Hacc.
  - apply Status_eqb_eq in Hacc.
    assert (Hv : forall s t, Verify b s t = (b, s, None)).
    { intros s t. unfold Verify. rewrite (core_Block_Verify_accepted _ Hacc). reflexivity. }
    rewrite !Hv. reflexivity.
  - assert (Hst : status (Block_core b) <> Accepted).
    { intros Heq. apply Status_eqb_eq in Heq. congruence. }
    destruct (Verify_success_inv _ _ _ Hst Hok) as (parent & Hp & Hw & Hc).
    rewrite (Verify_in_window_state _ _ _ _ Hst Hp Hw Hc). simpl.
    set (svm1 := set_DB svm _).
    assert (Hl1 : exists stored1,
              st_blocks (mem (DB svm1)) !! ParentID b = Some stored1 /\
              Timestamp stored1 <= Timestamp b).
    { apply Parent_this_Block in Hp as (stored & Hl & Hts).
      unfold svm1, view_after_Verify. simpl.
      destruct (write_err (base (DB svm))); simpl.
      - exists stored. split; [exact Hl|lia].
      - destruct (decide (id (Block_core b) = ParentID b)) as [Heq|Hne].
        + exists b. rewrite <- Heq, lookup_insert_eq. split; [reflexivity|lia].
        + exists stored. rewrite lookup_insert_ne by exact Hne. split; [exact Hl|lia]. }
    destruct Hl1 as (stored1 & Hl1 & Hts1).
    destruct (Parent_lookup b svm1 stored1 Hl1) as (parent1 & Hp1 & Hts1').
    assert (Hw1 : Timestamp parent1 <= Timestamp b < Unix now' + 3600).
    { apply Unix_monotone in Hle. lia. }
    rewrite (Verify_in_window_state b parent1 svm1 now' Hst Hp1 Hw1 eq_refl).
    unfold svm1, view_after_Verify. simpl.
    destruct (write_err (base (DB svm))); simpl; [reflexivity|].
    rewrite put_block_twice. reflexivity.
Qed.

Lemma Verify_again_witness :
  snd (Verify (Sample.child Unverified 200) (Sample.svm None None) Sample.now) = None /\
  Verify (Sample.child Unverified 200)
         (snd (fst (Verify (Sample.child Unverified 200) (Sample.svm None None) Sample.now)))
         (Sample.now + time_Hour)
    = (Sample.child Unverified 200,
       snd (fst (Verify (Sample.child Unverified 200) (Sample.svm None None) Sample.now)),
       None).
Proof.
  assert (Hok : snd (Verify (Sample.child Unverified 200) (Sample.svm None None) Sample.now)
                = None) by (vm_compute; reflexivity).
  split; [exact Hok|].
  apply (Verify_again _ _ _ _ Hok). vm_compute. discriminate.
Defined.



(** X7: [Verify] touches nothing but the database content.  Whatever
    it returns, the block, the preferred and the last accepted
    identity, the channel to the engine and the way the database
    handle answers writes and commits are the ones it found. *)
Theorem Verify_frame (b : Block) (svm : SnowmanVM) (now : Time) :
  let r := Verify b svm now in
  fst (fst r) = b /\
  Preferred (snd (fst r)) = Preferred svm /\
  LastAccepted (snd (fst r)) = LastAccepted svm /\
  ToEngine (snd (fst r)) = ToEngine svm /\
  write_err (base (DB (snd (fst r)))) = write_err (base (DB svm)) /\
  commit_err (base (DB (snd (fst r)))) = commit_err (base (DB svm)).
Proof.
  unfold Verify.
  destruct (core_Block_Verify (Block_core b)) as [accepted err].
  destruct (is_error err || accepted); [repeat split|].
  destruct (Parent b svm) as [parent|k]; [|repeat split].
  destruct (Timestamp b <? _); [repeat split|].
  destruct (Timestamp b >=? _); [repeat split|].
  unfold SaveBlock, db_write, Commit.
  destruct (write_err (base (DB svm))) eqn:He; simpl;
    destruct (commit_err (base (DB svm))) eqn:Hc; simpl; rewrite ?He, ?Hc; repeat split.
Qed.

Section FurtherProperties.

Context {ext : Externals} {dec : Decoder} {fmt : Formatting}.

(** ** [BuildBlock] and [NewBlock] beyond the claims *)

(** [NewBlock] reads the database and the codec of the VM, nothing
    else. *)
Lemma NewBlock_reads (vm vm' : VM) (parentID : ID) (data : list byte) (t : Time) :
  codec vm' = codec vm ->
  DB (VM_SnowmanVM vm') = DB (VM_SnowmanVM vm) ->
  NewBlock vm' parentID data t = NewBlock vm parentID data t.
Proof.
  intros Hc Hdb. unfold NewBlock, Block_Initialize. rewrite Hc, Hdb. reflexivity.
Qed.

(** X8: when the codec refuses the new block, [BuildBlock] returns
    the codec's error and the entry it took from the front of the
    mempool is gone: it is not put back. *)
Theorem BuildBlock_drops_entry_on_codec_error (vm : VM) (now : Time)
    (value : list byte) (rest : list (list byte)) (msg : string) :
  mempool vm = value :: rest ->
  Marshal (codec vm) (unsigned_block (Preferred (VM_SnowmanVM vm)) value now) = inl msg ->
  snd (BuildBlock vm now) = inl (codec_error msg) /\
  mempool (fst (BuildBlock vm now)) = rest.
Proof.
  intros Hm Hmarshal. rewrite (BuildBlock_cons _ _ _ _ Hm). simpl.
  split; [|reflexivity].
  unfold NewBlock. rewrite Hmarshal. reflexivity.
Qed.

(** X9: the timestamp of a block has the resolution of a second.  When
    the same payload is queued twice and both blocks are built within
    the same second, the second call returns the very block the first
    one returned, identity included. *)
Theorem BuildBlock_same_second (vm : VM) (t1 t2 : Time)
    (value : list byte) (rest : list (list byte)) :
  mempool vm = value :: value :: rest ->
  Unix t1 = Unix t2 ->
  snd (BuildBlock (fst (BuildBlock vm t1)) t2) = snd (BuildBlock vm t1).
Proof.
  intros Hm Hsec. rewrite (BuildBlock_cons vm t1 _ _ Hm). simpl.
  erewrite BuildBlock_cons by reflexivity. simpl.
  destruct (NotifyBlockReady_chain_state (VM_SnowmanVM vm)) as (Hdb & Hpref & _).
  unfold Preferred. rewrite Hpref.
  unfold NewBlock, unsigned_block, Block_Initialize. simpl.
  rewrite Hdb, Hsec. reflexivity.
Qed.

Lemma BuildBlock_database (vm : VM) (now : Time) :
  DB (VM_SnowmanVM (fst (BuildBlock vm now))) = DB (VM_SnowmanVM vm).
Proof.
  destruct (mempool vm) as [|value rest] eqn:Hm.
  - rewrite (BuildBlock_empty _ _ Hm). reflexivity.
  - rewrite (BuildBlock_cons _ _ _ _ Hm). simpl.
    destruct rest; [reflexivity|].
    apply NotifyBlockReady_chain_state.
Qed.

(** X10: [BuildBlock] writes nothing and takes at most one entry: the
    database and the codec are the ones it found, and the mempool is
    one entry shorter, or still empty. *)
Theorem BuildBlock_frame (vm : VM) (now : Time) :
  DB (VM_SnowmanVM (fst (BuildBlock vm now))) = DB (VM_SnowmanVM vm) /\
  codec (fst (BuildBlock vm now)) = codec vm /\
  mempool (fst (BuildBlock vm now)) = drop 1 (mempool vm).
Proof.
  split; [apply BuildBlock_database|].
  destruct (mempool vm) as [|value rest] eqn:Hm.
  - rewrite (BuildBlock_empty _ _ Hm). split; [reflexivity|exact Hm].
  - rewrite (BuildBlock_cons _ _ _ _ Hm). split; reflexivity.
Qed.


End FurtherProperties.

Section InitializeAndService.

Context {ext : Externals} {dec : Decoder} {fmt : Formatting}.

(** ** [Initialize] beyond the claims *)

(** X12: an [Initialize] that returns an error has changed nothing
    durable: the database handle still holds the content it was given,
    so the next start finds the chain as this one found it. *)
Theorem Initialize_error_keeps_durable (vm : VM) (db : Database) (g : list byte) (ch : Chan) :
  snd (Initialize vm db g ch) <> None ->
  durable (base (DB (VM_SnowmanVM (fst (Initialize vm db g ch))))) = durable db.
Proof.
  unfold Initialize, SnowmanVM_Initialize, DBInitialized. simpl.
  destruct (st_initialized (durable db)) eqn:Hflag.
  - destruct (st_lastAccepted (durable db)); simpl.
    + rewrite Hflag. simpl. intros Herr. contradiction.
    + reflexivity.
  - simpl. rewrite ?Hflag. simpl.
    destruct (32 <? length g)%nat; [reflexivity|].
    destruct (NewBlock _ _ _ _) as [e|genesisBlock]; [reflexivity|].
    unfold SaveBlock, Accept, SetDBInitialized, db_write, Commit. simpl.
    destruct (write_err db) eqn:Hw; simpl; [reflexivity|].
    repeat (rewrite Hw; simpl).
    destruct (commit_err db); simpl; [reflexivity|].
    intros Herr. contradiction.
Qed.

(** X13: genesis data is padded with zero bytes, so data that differ
    only by one more zero byte at the end bootstrap the same chain:
    [Initialize] returns the same state and the same result. *)
Theorem Initialize_trailing_zero (vm : VM) (db : Database) (g : list byte) (ch : Chan) :
  (length g < 32)%nat ->
  Initialize vm db (g ++ [x00]) ch = Initialize vm db g ch.
Proof.
  intros Hlen.
  assert (Hfit : (32 <? length (g ++ [x00]))%nat = (32 <? length g)%nat).
  { rewrite length_app. simpl.
    transitivity false; [apply Nat.ltb_ge; lia|symmetry; apply Nat.ltb_ge; lia]. }
  assert (Hcopy : copy (zero_array dataLen) (g ++ [x00]) = copy (zero_array dataLen) g).
  { unfold dataLen. rewrite !copy_zero_array_short by (rewrite ?length_app; simpl; lia).
    rewrite length_app. simpl. rewrite <- app_assoc. f_equal.
    replace (32 - length g)%nat with (S (32 - (length g + 1)))%nat by lia.
    reflexivity. }
  unfold Initialize.
  destruct (SnowmanVM_Initialize (VM_SnowmanVM vm) db ch) as [svm [err|]]; [reflexivity|].
  rewrite Hfit, Hcopy. reflexivity.
Qed.



(** X15: [Initialize] keeps the mempool: payloads proposed before the
    call, or before a repeated call, are still queued after it,
    whatever it returns. *)
Theorem Initialize_keeps_mempool (vm : VM) (db : Database) (g : list byte) (ch : Chan) :
  mempool (fst (Initialize vm db g ch)) = mempool vm.
Proof.
  unfold Initialize.
  destruct (SnowmanVM_Initialize (VM_SnowmanVM vm) db ch) as [svm [err|]]; [reflexivity|].
  simpl. destruct (negb (DBInitialized svm)); [|reflexivity].
  destruct (32 <? length g)%nat; [reflexivity|].
  destruct (NewBlock _ _ _ _) as [e|genesisBlock]; [reflexivity|].
  destruct (SaveBlock _ _) as [db1 [e|]]; [reflexivity|].
  destruct (Accept _ _) as [[blk svm2] e2].
  destruct (SetDBInitialized svm2) as [svm3 e3].
  destruct (Commit (DB svm3)) as [db4 e4]. reflexivity.
Qed.

(** ** [ParseBlock] *)

(** X16: parsing gives back what was built.  When the codec reads, from
    the bytes of a block made by [NewBlock], the parent, the data and
    the timestamp the block was made from, [ParseBlock] on those bytes
    returns that very block, identity and status included, and no
    error. *)
Theorem ParseBlock_NewBlock (vm : VM) (parentID : ID) (data : list byte) (t : Time)
    (blk : Block) (raw : raw_Block) (cb : core_Block) :
  NewBlock vm parentID data t = inr blk ->
  Unmarshal (codec vm) (bytes (Block_core blk)) empty_raw_Block = (raw, None) ->
  raw_core raw = Some cb ->
  PrntID cb = parentID ->
  raw_Data raw = data ->
  raw_Timestamp raw = Unix t ->
  ParseBlock vm (bytes (Block_core blk)) = returned (blk, None).
Proof.
  intros Hnew Hun Hcore Hparent Hdata Hts.
  unfold NewBlock in Hnew.
  destruct (Marshal (codec vm) _) as [e|blockBytes]; [discriminate|].
  injection Hnew as <-. simpl in *.
  unfold ParseBlock. rewrite Hun, Hcore.
  unfold Block_Initialize, unsigned_block. simpl.
  rewrite Hparent, Hdata, Hts. reflexivity.
Qed.

(** ** The service's [GetBlock] *)

(** X17: what the service's [GetBlock] answers.  It fails with the
    parsing error exactly when the identity given is not empty and
    does not parse; an error leaves the reply as it was; and for the
    identity it looks up (the last accepted one when none is given)
    it fails with the database error when nothing is stored under it,
    and otherwise fills the reply from the stored block. *)
Theorem Service_GetBlock_reads (vm : VM) (args : GetBlockArgs) (reply : APIBlock) :
  let r := Service_GetBlock vm args reply in
  (snd r = Some errParsingID <->
     args_ID args <> "" /\ exists e, ids_FromString (args_ID args) = inl e) /\
  (snd r <> None -> fst r = reply) /\
  (forall k,
     (args_ID args = "" /\ k = LastAccepted (VM_SnowmanVM vm)) \/
     (args_ID args <> "" /\ ids_FromString (args_ID args) = inr k) ->
     (st_blocks (mem (DB (VM_SnowmanVM vm))) !! k = None ->
        r = (reply, Some errGettingData)) /\
     (forall b, st_blocks (mem (DB (VM_SnowmanVM vm))) !! k = Some b ->
        r = ({| api_Timestamp := Timestamp b;
                api_Data := CB58_String (Data b);
                api_ID := ID_String (id (Block_core b));
                api_ParentID := ID_String (ParentID b) |}, None))).
Proof.
  unfold Service_GetBlock, GetBlock.
  destruct (String.eqb (args_ID args) "") eqn:Hempty.
  - apply String.eqb_eq in Hempty.
    split; [|split].
    + split.
      * destruct (st_blocks _ !! _); discriminate.
      * intros [Hne _]. contradiction.
    + destruct (st_blocks _ !! _); simpl; [intros Hne; contradiction|reflexivity].
    + intros k [[_ ->]|[Hne _]]; [|contradiction].
      split; [intros ->; reflexivity|intros b ->; reflexivity].
  - apply String.eqb_neq in Hempty.
    destruct (ids_FromString (args_ID args)) as [e|k0] eqn:Hparse.
    + split; [|split].
      * split; [intros _; split; [exact Hempty|eauto]|reflexivity].
      * reflexivity.
      * intros k [[Heq _]|[_ Hk]]; [contradiction|discriminate].
    + split; [|split].
      * split.
        -- destruct (st_blocks _ !! _); discriminate.
        -- intros [_ [e He]]. discriminate.
      * destruct (st_blocks _ !! _); simpl; [intros Hne; contradiction|reflexivity].
      * intros k [[Heq _]|[_ [= <-]]]; [contradiction|].
        split; [intros ->; reflexivity|intros b ->; reflexivity].
Qed.

End InitializeAndService.

Section EndToEnd.

Context {ext : Externals} {dec : Decoder} {fmt : Formatting}.

(** X18: after the bootstrap, asking the service for the block with no
    identity given returns the genesis block: its identity, timestamp
    0, the empty identity as parent and the padded genesis data.  This
    holds as soon as the genesis block was marshalled and written,
    whether or not the commit that ends [Initialize] succeeded. *)
Theorem Service_GetBlock_after_Initialize (vm : VM) (db : Database) (g : list byte)
    (ch : Chan) (blockBytes : list byte) (reply : APIBlock) :
  st_initialized (durable db) = false ->
  (length g <= 32)%nat ->
  Marshal codec_NewDefault
    (unsigned_block ids_Empty (g ++ replicate (32 - length g) x00) (time_Unix 0 0))
    = inr blockBytes ->
  write_err db = None ->
  Service_GetBlock (fst (Initialize vm db g ch)) {| args_ID := "" |} reply
    = ({| api_Timestamp := 0;
          api_Data := CB58_String (g ++ replicate (32 - length g) x00);
          api_ID := ID_String (ComputeHash256 blockBytes);
          api_ParentID := ID_String ids_Empty |}, None).
Proof.
  intros Hflag Hlen Hbytes Hw.
  rewrite (Initialize_fresh vm db g ch blockBytes Hflag Hlen Hbytes Hw). simpl.
  unfold Service_GetBlock, GetBlock, GetStatus, LastAccepted. simpl.
  rewrite !Commit_mem. simpl. rewrite !lookup_insert_eq. reflexivity.
Qed.


End EndToEnd.

(** * Worked examples for the further properties *)

(** Two queued payloads drained at two readings of the clock. *)
Lemma BuildBlocks_in_order_witness :
  exists blocks,
    snd (BuildBlocks (H := Sample.externals)
           (Sample.vm [Sample.zeros; Sample.genesis_array])
           [Sample.now; Sample.now + time_Hour])
      = map inr blocks /\
    map Data blocks = [Sample.zeros; Sample.genesis_array] /\
    mempool (fst (BuildBlocks (H := Sample.externals)
                    (Sample.vm [Sample.zeros; Sample.genesis_array])
                    [Sample.now; Sample.now + time_Hour])) = [].
Proof.
  apply (BuildBlocks_in_order (H := Sample.externals)
           (Sample.vm [Sample.zeros; Sample.genesis_array])
           [Sample.now; Sample.now + time_Hour]).
  - intros blk. eexists. reflexivity.
  - reflexivity.
Defined.

(** A VM whose codec refuses every block, with one payload queued. *)
Lemma BuildBlock_drops_entry_on_codec_error_witness :
  let vm := {| VM_SnowmanVM := Sample.svm None None; codec := Sample.failing_codec;
               mempool := [Sample.zeros] |} in
  snd (BuildBlock (H := Sample.externals) vm Sample.now) = inl (codec_error "cannot marshal") /\
  mempool (fst (BuildBlock (H := Sample.externals) vm Sample.now)) = [].
Proof.
  apply (BuildBlock_drops_entry_on_codec_error (ext := Sample.externals)
           {| VM_SnowmanVM := Sample.svm None None; codec := Sample.failing_codec;
              mempool := [Sample.zeros] |} Sample.now Sample.zeros []);
    reflexivity.
Defined.

(** The same payload twice, built 250 and 900 nanoseconds into second
    1000. *)
Lemma BuildBlock_same_second_witness :
  Unix Sample.now = Unix (time_Unix 1000 900) /\
  snd (BuildBlock (H := Sample.externals)
         (fst (BuildBlock (H := Sample.externals)
                 (Sample.vm [Sample.zeros; Sample.zeros]) Sample.now))
         (time_Unix 1000 900))
    = snd (BuildBlock (H := Sample.externals)
             (Sample.vm [Sample.zeros; Sample.zeros]) Sample.now).
Proof.
  split; [reflexivity|].
  apply (BuildBlock_same_second (ext := Sample.externals)
           (Sample.vm [Sample.zeros; Sample.zeros]) Sample.now (time_Unix 1000 900)
           Sample.zeros []);
    reflexivity.
Defined.


(** [Initialize] with genesis data of 33 bytes on the database of the
    sample chain's first start. *)
Lemma Initialize_error_keeps_durable_witness :
  snd (Initialize (H := Sample.externals) (Sample.blank_vm Sample.plain_codec)
         (Sample.fresh_handle None (Some "disk full")) Sample.genesis_data Sample.engine)
    = Some (database_error "disk full") /\
  durable (base (DB (VM_SnowmanVM
     (fst (Initialize (H := Sample.externals) (Sample.blank_vm Sample.plain_codec)
             (Sample.fresh_handle None (Some "disk full")) Sample.genesis_data
             Sample.engine)))))
    = Sample.empty_store.
Proof.
  split; [vm_compute; reflexivity|].
  apply (Initialize_error_keeps_durable (ext := Sample.externals)
           (Sample.blank_vm Sample.plain_codec)
           (Sample.fresh_handle None (Some "disk full")) Sample.genesis_data Sample.engine).
  vm_compute. discriminate.
Defined.

Lemma Initialize_trailing_zero_witness :
  Initialize (H := Sample.externals) (Sample.blank_vm Sample.plain_codec)
    (Sample.fresh_handle None None) (Sample.genesis_data ++ [x00]) Sample.engine
  = Initialize (H := Sample.externals) (Sample.blank_vm Sample.plain_codec)
      (Sample.fresh_handle None None) Sample.genesis_data Sample.engine.
Proof.
  apply (Initialize_trailing_zero (ext := Sample.externals)).
  simpl. lia.
Defined.


(** A block built by the sample VM, parsed back from its bytes with
    the sample decoder. *)
Lemma ParseBlock_NewBlock_witness :
  exists blk,
    NewBlock (H := Sample.externals) (Sample.vm []) 7%N Sample.zeros Sample.now = inr blk /\
    ParseBlock (ext := Sample.externals) (dec := Sample.plain_decoder) (Sample.vm [])
      (bytes (Block_core blk)) = returned (blk, None).
Proof.
  eexists. split; [vm_compute; reflexivity|].
  eapply (ParseBlock_NewBlock (ext := Sample.externals) (dec := Sample.plain_decoder)
            (Sample.vm []) 7%N Sample.zeros Sample.now).
  - vm_compute. reflexivity.
  - vm_compute. reflexivity.
  - reflexivity.
  - reflexivity.
  - reflexivity.
  - reflexivity.
Defined.

(** The sample bootstrap read through the service. *)
Lemma Service_GetBlock_after_Initialize_witness :
  Service_GetBlock (fmt := Sample.decimal_formatting) Sample.booted {| args_ID := "" |}
    {| api_Timestamp := 5; api_Data := "none"; api_ID := "none"; api_ParentID := "none" |}
  = ({| api_Timestamp := 0;
        api_Data := string_of_list_byte Sample.genesis_array;
        api_ID := "799951";
        api_ParentID := "0" |}, None).
Proof.
  exact (Service_GetBlock_after_Initialize (ext := Sample.externals)
           (fmt := Sample.decimal_formatting)
           (Sample.blank_vm Sample.failing_codec) (Sample.fresh_handle None None)
           Sample.genesis_data Sample.engine Sample.genesis_bytes _
           eq_refl ltac:(simpl; lia) eq_refl eq_refl).
Defined.

